(** * Image microservice (app.py): the two-backend consistency protocol

    A shallow embedding of the Flask handlers [upload_image], [list_images],
    [update_image], [delete_image] and of [format_response].  The object
    storage bucket and the relational table are explicit components of a
    [World]; every backend call may raise, which the handlers never catch,
    so each handler runs in a state-and-exception monad over the world. *)

From stdpp Require Import gmap strings list.
From Stdlib Require Import ZArith.
From Stdlib.Strings Require Import Byte.

Local Open Scope string_scope.
Local Open Scope list_scope.
Local Open Scope Z_scope.
Set Warnings "-register-all".

(** ** Data model *)

(** The [werkzeug] file handle of one multipart part: the attributes the
    handlers read.  [content_length] is the length the part's own headers
    declare (0 when the part carries no such header); [stream] is what
    [upload_from_file] reads and sends to the bucket. *)
Record FileStorage := mkFile {
  filename : string;
  content_length : Z;
  content_type : string;
  stream : list byte
}.

(** What a handler sees of the request: the [Accept] header and
    [request.files]['file']. *)
Record Request := mkRequest {
  accept : option string;
  files_file : option FileStorage
}.

(** One object of the bucket. *)
Record Blob := mkBlob {
  blob_content : list byte;
  blob_content_type : string;
  blob_public : bool
}.

(** One row of table [images]. *)
Record Row := mkRow {
  row_id : Z;
  row_filename : string;
  row_filesize_bytes : Z;
  row_mime_type : string;
  row_access_url : string
}.

(** Calls that reach a backend, in the order they are issued. *)
Inductive Event :=
  | EvBlobDelete (key : string)
  | EvBlobUpload (key : string) (ctype : string)
  | EvBlobMakePublic (key : string)
  | EvDbConnect
  | EvDbSelectAll
  | EvDbSelectFilename (image_id : Z)
  | EvDbInsert (fname : string) (size : Z) (mime : string) (url : string)
  | EvDbUpdate (image_id : Z) (fname : string) (size : Z) (mime : string)
               (url : string)
  | EvDbDelete (image_id : Z)
  | EvDbCommit
  | EvDbClose.

(** Exceptions of the two client libraries. *)
Inductive Error :=
  | StorageNotFoundError
  | StorageWriteError
  | StoreConnectionError
  | StoreQueryError.

Definition is_storage_error (e : Error) : bool :=
  match e with
  | StorageNotFoundError | StorageWriteError => true
  | _ => false
  end.

(** Which backend calls of one request fail for reasons outside the model
    (network, permissions, a rejected statement). *)
Record Faults := mkFaults {
  connect_fails : bool;
  select_fails : bool;
  insert_fails : bool;
  update_fails : bool;
  delete_fails : bool;
  commit_fails : bool;
  blob_delete_fails : bool;
  upload_fails : bool;
  make_public_fails : bool
}.

Definition no_faults : Faults :=
  mkFaults false false false false false false false false false.

(** The state shared by all requests: the bucket, the committed rows of
    [images] with the table's AUTO_INCREMENT counter, the number of
    database connections currently open, and the log of the calls the
    handlers issue to the backends. *)
Record World := mkWorld {
  bucket : gmap string Blob;
  images : list Row;
  auto_increment : Z;
  open_conns : nat;
  trace : list Event
}.

Definition init_world : World := mkWorld ∅ [] 1 0 [].

Definition set_bucket (b : gmap string Blob) (w : World) : World :=
  mkWorld b (images w) (auto_increment w) (open_conns w) (trace w).
Definition set_images (r : list Row) (w : World) : World :=
  mkWorld (bucket w) r (auto_increment w) (open_conns w) (trace w).
Definition set_auto_increment (n : Z) (w : World) : World :=
  mkWorld (bucket w) (images w) n (open_conns w) (trace w).
Definition set_open_conns (n : nat) (w : World) : World :=
  mkWorld (bucket w) (images w) (auto_increment w) n (trace w).
Definition set_trace (t : list Event) (w : World) : World :=
  mkWorld (bucket w) (images w) (auto_increment w) (open_conns w) t.

(** ** The handler monad: world passing with uncaught exceptions *)

Inductive Result (A : Type) :=
  | Ok (a : A)
  | Raise (e : Error).
Arguments Ok {A} a.
Arguments Raise {A} e.

Definition M (A : Type) : Type := World → Result A * World.

Definition ret {A} (a : A) : M A := λ w, (Ok a, w).
Definition raise {A} (e : Error) : M A := λ w, (Raise e, w).
Definition bind {A B} (m : M A) (k : A → M B) : M B :=
  λ w, match m w with
       | (Ok a, w') => k a w'
       | (Raise e, w') => (Raise e, w')
       end.

Notation "'do' x <- m ; k" := (bind m (λ x, k))
  (at level 10, x name, m at level 100, k at level 200).
Notation "m ;; k" := (bind m (λ _, k))
  (at level 100, k at level 200, right associativity).

Definition emit (e : Event) : M unit :=
  λ w, (Ok tt, set_trace (trace w ++ [e]) w).

(** ** Payloads and responses *)

(** A payload handed to the formatter: strings, integers, lists and
    dictionaries in insertion order. *)
Inductive Value :=
  | VStr (s : string)
  | VInt (n : Z)
  | VList (l : list Value)
  | VDict (d : list (string * Value)).

(** The two serializers are library code; a body is the serializer applied
    to its arguments. *)
Inductive Body :=
  | jsonify (data : Value)
  | dicttoxml (data : Value) (custom_root : string) (attr_type : bool).

Record Response := mkResponse {
  body : Body;
  status_code : Z;
  header_content_type : string
}.

(** Flask's [make_response(rv, code)]: a [jsonify] value is already a
    response of mimetype application/json and only gets the status; any
    other body becomes a response of the default mimetype. *)
Definition make_response (rv : Body) (code : Z) : Response :=
  match rv with
  | jsonify _ => mkResponse rv code "application/json"
  | dicttoxml _ _ _ => mkResponse rv code "text/html; charset=utf-8"
  end.

Definition set_header_content_type (v : string) (r : Response) : Response :=
  mkResponse (body r) (status_code r) v.

Definition format_response (request : Request) (data : Value) (code : Z)
  : Response :=
  if decide (accept request = Some "application/xml") then
    let xml_data := dicttoxml data "response" false in
    let response := make_response xml_data code in
    set_header_content_type "application/xml" response
  else
    make_response (jsonify data) code.

(** A row as the dictionary cursor returns it. *)
Definition row_dict (r : Row) : Value :=
  VDict [("id", VInt (row_id r));
         ("filename", VStr (row_filename r));
         ("filesize_bytes", VInt (row_filesize_bytes r));
         ("mime_type", VStr (row_mime_type r));
         ("access_url", VStr (row_access_url r))].

(** Lookup of a key in a payload dictionary. *)
Fixpoint assoc (k : string) (d : list (string * Value)) : option Value :=
  match d with
  | [] => None
  | (k', v) :: d' => if decide (k' = k) then Some v else assoc k d'
  end.

Definition field (k : string) (v : Value) : option Value :=
  match v with
  | VDict d => assoc k d
  | _ => None
  end.

(** ** The two backends *)

Section Backends.

(** The bucket's name (environment variable GCP_BUCKET_NAME, read once at
    start-up) and the URL quoting the storage client applies to object
    names. *)
Variable GCP_BUCKET_NAME : string.
Variable quote : string → string.

(** [blob.public_url] of the object named [key]. *)
Definition public_url (key : string) : string :=
  "https://storage.googleapis.com/" +:+ GCP_BUCKET_NAME +:+ "/" +:+ quote key.

Variable flt : Faults.

(** [bucket.blob(key).delete()]: raises when the object is absent. *)
Definition blob_delete (key : string) : M unit :=
  emit (EvBlobDelete key) ;;
  if blob_delete_fails flt then raise StorageWriteError
  else λ w, match bucket w !! key with
            | None => (Raise StorageNotFoundError, w)
            | Some _ => (Ok tt, set_bucket (delete key (bucket w)) w)
            end.

(** [bucket.blob(key).upload_from_file(file, content_type=ctype)]: writes
    the whole stream under [key], replacing any object already there. *)
Definition upload_from_file (key : string) (file : FileStorage)
    (ctype : string) : M unit :=
  emit (EvBlobUpload key ctype) ;;
  if upload_fails flt then raise StorageWriteError
  else λ w, (Ok tt,
             set_bucket (<[key := mkBlob (stream file) ctype false]> (bucket w)) w).

(** [blob.make_public()]. *)
Definition make_public (key : string) : M unit :=
  emit (EvBlobMakePublic key) ;;
  if make_public_fails flt then raise StorageWriteError
  else λ w, match bucket w !! key with
            | None => (Raise StorageNotFoundError, w)
            | Some b =>
                (Ok tt,
                 set_bucket (<[key := mkBlob (blob_content b)
                                         (blob_content_type b) true]> (bucket w)) w)
            end.

(** A connection with its cursor: the rows as this connection sees them,
    that is the committed rows and its own writes not yet committed (the
    connector does not autocommit; writes reach the table at [commit]). *)
Record Conn := mkConn { tx_rows : list Row }.

Definition get_db_connection : M Conn :=
  emit EvDbConnect ;;
  if connect_fails flt then raise StoreConnectionError
  else λ w, (Ok (mkConn (images w)), set_open_conns (S (open_conns w)) w).

(** SELECT * FROM images, then [fetchall]. *)
Definition select_all (conn : Conn) : M (list Row) :=
  emit EvDbSelectAll ;;
  if select_fails flt then raise StoreQueryError
  else ret (tx_rows conn).

(** First row with the given id. *)
Fixpoint find_row (image_id : Z) (rows : list Row) : option Row :=
  match rows with
  | [] => None
  | r :: rows' =>
      if decide (row_id r = image_id) then Some r else find_row image_id rows'
  end.

(** SELECT filename FROM images WHERE id = %s, then [fetchone]: the
    filename column of the row, or nothing. *)
Definition select_filename (conn : Conn) (image_id : Z) : M (option string) :=
  emit (EvDbSelectFilename image_id) ;;
  if select_fails flt then raise StoreQueryError
  else ret (row_filename <$> find_row image_id (tx_rows conn)).

(** INSERT INTO images (filename, filesize_bytes, mime_type, access_url):
    the id is the table's counter, which advances at once. *)
Definition insert_row (conn : Conn) (fname : string) (size : Z)
    (mime url : string) : M Conn :=
  emit (EvDbInsert fname size mime url) ;;
  if insert_fails flt then raise StoreQueryError
  else λ w,
    (Ok (mkConn (tx_rows conn ++ [mkRow (auto_increment w) fname size mime url])),
     set_auto_increment (auto_increment w + 1) w).

(** UPDATE images SET ... WHERE id = %s. *)
Definition update_row (conn : Conn) (fname : string) (size : Z)
    (mime url : string) (image_id : Z) : M Conn :=
  emit (EvDbUpdate image_id fname size mime url) ;;
  if update_fails flt then raise StoreQueryError
  else ret (mkConn (map (λ r, if decide (row_id r = image_id)
                              then mkRow (row_id r) fname size mime url
                              else r) (tx_rows conn))).

(** DELETE FROM images WHERE id = %s. *)
Definition delete_row (conn : Conn) (image_id : Z) : M Conn :=
  emit (EvDbDelete image_id) ;;
  if delete_fails flt then raise StoreQueryError
  else ret (mkConn (filter (λ r, row_id r ≠ image_id) (tx_rows conn))).

(** [conn.commit()]: the connection's rows become the table. *)
Definition commit (conn : Conn) : M unit :=
  emit EvDbCommit ;;
  if commit_fails flt then raise StoreQueryError
  else λ w, (Ok tt, set_images (tx_rows conn) w).

(** [cursor.close(); conn.close()]. *)
Definition close (conn : Conn) : M unit :=
  emit EvDbClose ;;
  λ w, (Ok tt, set_open_conns (pred (open_conns w)) w).

(** A handler that returns while its local [conn] is still open: the
    frame is torn down, the connection object is finalised and the
    connection is released, without any call of [conn.close()].  (An
    exception keeps the frame, and with it the connection, alive.) *)
Definition finalize (conn : Conn) : M unit :=
  λ w, (Ok tt, set_open_conns (pred (open_conns w)) w).

(** ** The four handlers *)

Definition upload_image (request : Request) : M Response :=
  match files_file request with
  | None =>
      ret (format_response request
             (VDict [("error", VStr "No se encontró el archivo")]) 400)
  | Some file =>
      upload_from_file (filename file) file (content_type file) ;;
      make_public (filename file) ;;
      let access_url := public_url (filename file) in
      do conn <- get_db_connection ;
      do conn <- insert_row conn (filename file) (content_length file)
                   (content_type file) access_url ;
      commit conn ;;
      close conn ;;
      ret (format_response request
             (VDict [("message", VStr "Imagen subida correctamente");
                     ("filename", VStr (filename file));
                     ("access_url", VStr access_url)]) 200)
  end.

Definition list_images (request : Request) : M Response :=
  do conn <- get_db_connection ;
  do images <- select_all conn ;
  close conn ;;
  ret (format_response request
         (VDict [("images", VList (map row_dict images))]) 200).

Definition update_image (request : Request) (image_id : Z) : M Response :=
  match files_file request with
  | None =>
      ret (format_response request
             (VDict [("error", VStr "No se encontró el archivo")]) 400)
  | Some file =>
      do conn <- get_db_connection ;
      do old <- select_filename conn image_id ;
      match old with
      | None =>
          finalize conn ;;
          ret (format_response request
                 (VDict [("error", VStr "Imagen no encontrada")]) 404)
      | Some old_filename =>
          blob_delete old_filename ;;
          upload_from_file (filename file) file (content_type file) ;;
          make_public (filename file) ;;
          do conn <- update_row conn (filename file) (content_length file)
                       (content_type file) (public_url (filename file))
                       image_id ;
          commit conn ;;
          close conn ;;
          ret (format_response request
                 (VDict [("message", VStr "Imagen actualizada correctamente");
                         ("new_url", VStr (public_url (filename file)))]) 200)
      end
  end.

Definition delete_image (request : Request) (image_id : Z) : M Response :=
  do conn <- get_db_connection ;
  do img <- select_filename conn image_id ;
  match img with
  | None =>
      finalize conn ;;
      ret (format_response request
             (VDict [("error", VStr "Imagen no encontrada")]) 404)
  | Some img_filename =>
      blob_delete img_filename ;;
      do conn <- delete_row conn image_id ;
      commit conn ;;
      close conn ;;
      ret (format_response request
             (VDict [("message", VStr "Imagen eliminada correctamente")]) 200)
  end.

End Backends.

(** ** Requests as steps of the service *)

Inductive Call :=
  | Create (request : Request)
  | Listing (request : Request)
  | Replace (request : Request) (image_id : Z)
  | Delete (request : Request) (image_id : Z).

Section Service.

Variable GCP_BUCKET_NAME : string.
Variable quote : string → string.

Definition handle (flt : Faults) (c : Call) : M Response :=
  match c with
  | Create request => upload_image GCP_BUCKET_NAME quote flt request
  | Listing request => list_images flt request
  | Replace request image_id =>
      update_image GCP_BUCKET_NAME quote flt request image_id
  | Delete request image_id => delete_image flt request image_id
  end.

(** Worlds the service can be in: any sequence of requests, each with any
    pattern of backend failures, from the empty bucket and table. *)
Inductive reachable : World → Prop :=
  | reachable_init : reachable init_world
  | reachable_step w flt c :
      reachable w → reachable (handle flt c w).2.

(** Every row carries the public URL of the object named by its filename,
    ids are below the table's counter and no id occurs twice. *)
Definition row_ok (next : Z) (r : Row) : Prop :=
  row_access_url r = public_url GCP_BUCKET_NAME quote (row_filename r)
  ∧ row_id r < next.

Definition table_ok (next : Z) (rows : list Row) : Prop :=
  Forall (row_ok next) rows ∧ NoDup (map row_id rows).

Definition world_ok (w : World) : Prop :=
  table_ok (auto_increment w) (images w).

(** The backend calls of a Replace request that finds its record, in the
    order the handler issues them. *)
Definition replace_calls (image_id : Z) (old_filename : string)
    (file : FileStorage) : list Event :=
  [EvDbConnect; EvDbSelectFilename image_id;
   EvBlobDelete old_filename;
   EvBlobUpload (filename file) (content_type file);
   EvBlobMakePublic (filename file);
   EvDbUpdate image_id (filename file) (content_length file)
     (content_type file) (public_url GCP_BUCKET_NAME quote (filename file));
   EvDbCommit; EvDbClose].

(** The backend calls of a Create request with a file part, in the order
    the handler issues them. *)
Definition create_calls (file : FileStorage) : list Event :=
  [EvBlobUpload (filename file) (content_type file);
   EvBlobMakePublic (filename file);
   EvDbConnect;
   EvDbInsert (filename file) (content_length file) (content_type file)
     (public_url GCP_BUCKET_NAME quote (filename file));
   EvDbCommit; EvDbClose].

End Service.

(** The request a call carries. *)
Definition request_of (c : Call) : Request :=
  match c with
  | Create request | Listing request => request
  | Replace request _ | Delete request _ => request
  end.

(** The status of the response, when the handler returned one. *)
Definition response_status (r : Result Response) : option Z :=
  match r with
  | Ok resp => Some (status_code resp)
  | Raise _ => None
  end.

(** The payload a body was rendered from. *)
Definition payload (b : Body) : Value :=
  match b with
  | jsonify data => data
  | dicttoxml data _ _ => data
  end.

(** The payload of the response, when the handler returned one. *)
Definition response_payload (r : Result Response) : option Value :=
  match r with
  | Ok resp => Some (payload (body resp))
  | Raise _ => None
  end.

(** Records that reference the object named [key]. *)
Definition referencing (key : string) (rows : list Row) : list Row :=
  filter (λ r, row_filename r = key) rows.

(** The object named [key] exists and no record references it. *)
Definition orphaned (key : string) (w : World) : Prop :=
  is_Some (bucket w !! key) ∧ referencing key (images w) = [].

(** ** Concrete requests and worlds used in the examples *)

Definition cat_png (declared : Z) : FileStorage :=
  mkFile "cat.png" declared "image/png" (replicate 1024 x00).

Definition dog_png : FileStorage :=
  mkFile "dog.png" 3 "image/png" [x01; x02; x03].

Definition post (f : FileStorage) : Request := mkRequest None (Some f).
Definition bare : Request := mkRequest None None.
Definition bare_xml : Request := mkRequest (Some "application/xml") None.

Definition imgs_url (key : string) : string :=
  public_url "imgs" (λ s, s) key.

Definition imgs_upload_image := upload_image "imgs" (λ s, s).
Definition imgs_update_image := update_image "imgs" (λ s, s).

(** The INSERT statement is rejected; every other call succeeds. *)
Definition insert_rejected : Faults :=
  mkFaults false false true false false false false false false.

(** The record of cat.png as the service writes it. *)
Definition cat_row : Row :=
  mkRow 1 "cat.png" 1 "image/png" (imgs_url "cat.png").

(** A record whose object is missing from the bucket. *)
Definition dangling_cat : World := mkWorld ∅ [cat_row] 2 0 [].

(** One record, cat.png, with its object in the bucket. *)
Definition one_cat : World :=
  mkWorld {[ "cat.png" := mkBlob [x2a] "image/png" true ]}
          [cat_row] 2 0 [].

(** The upload is refused; every other call succeeds. *)
Definition upload_rejected : Faults :=
  mkFaults false false false false false false false true false.

(** The commit is refused; every other call succeeds. *)
Definition commit_rejected : Faults :=
  mkFaults false false false false false true false false false.

(** Two records that carry the same filename and share its object. *)
Definition cat_row_2 : Row :=
  mkRow 2 "cat.png" 1024 "image/png" (imgs_url "cat.png").

Definition two_cats : World :=
  mkWorld {[ "cat.png" := mkBlob [x2a] "image/png" true ]}
          [cat_row; cat_row_2] 3 0 [].

(** ** Response formatter *)

Lemma format_response_status request data code :
  status_code (format_response request data code) = code.
Proof. unfold format_response. by case_decide. Qed.

Lemma format_response_payload request data code :
  payload (body (format_response request data code)) = data.
Proof. unfold format_response. by case_decide. Qed.

(** C6: the response is XML, with content type application/xml, exactly
    when the Accept header is the literal application/xml; for any other
    value or no header it is JSON; either way it carries the given status
    code. *)
Theorem format_response_negotiation (request : Request) (data : Value)
    (code : Z) :
  let r := format_response request data code in
  status_code r = code
  ∧ (body r = dicttoxml data "response" false
     ↔ accept request = Some "application/xml")
  ∧ (header_content_type r = "application/xml"
     ↔ accept request = Some "application/xml")
  ∧ (body r = jsonify data ↔ accept request ≠ Some "application/xml")
  ∧ (header_content_type r = "application/json"
     ↔ accept request ≠ Some "application/xml").
Proof.
  cbv zeta. unfold format_response.
  destruct (decide (accept request = Some "application/xml")) as [Hx|Hx];
    simpl; repeat split; intros; try done.
Qed.

Example format_response_xml :
  format_response bare_xml (VDict [("message", VStr "ok")]) 200
  = mkResponse (dicttoxml (VDict [("message", VStr "ok")]) "response" false)
               200 "application/xml".
Proof. reflexivity. Qed.

Example format_response_other_accept :
  header_content_type
    (format_response (mkRequest (Some "application/xml, text/html") None)
       (VDict []) 404) = "application/json".
Proof. reflexivity. Qed.

(** ** Running a handler: one case per backend call that can fail *)

Ltac unfold_handlers :=
  unfold handle, upload_image, list_images, update_image, delete_image,
    blob_delete, upload_from_file, make_public, get_db_connection,
    select_all, select_filename, insert_row, update_row, delete_row,
    commit, close, finalize, bind, emit, ret, raise, replace_calls,
    create_calls.

Ltac split_call :=
  match goal with
  | |- context [match files_file ?r with _ => _ end] =>
      destruct (files_file r) eqn:?
  | |- context [<[?k := _]> _ !! ?k] => rewrite lookup_insert_eq
  | |- context [find_row ?i ?l] => destruct (find_row i l) eqn:?
  | |- context [if ?b then _ else _] => destruct b eqn:?
  | |- context [match bucket ?w !! ?k with _ => _ end] =>
      destruct (bucket w !! k) eqn:?
  end.

Ltac run_handler := unfold_handlers; simpl; repeat (split_call; simpl).

Ltac unfold_invariant := unfold world_ok in *.

Section Properties.

Variable GCP_BUCKET_NAME : string.
Variable quote : string → string.

Abbreviation upload_image := (upload_image GCP_BUCKET_NAME quote).
Abbreviation update_image := (update_image GCP_BUCKET_NAME quote).
Abbreviation public_url := (public_url GCP_BUCKET_NAME quote).
Abbreviation handle := (handle GCP_BUCKET_NAME quote).
Abbreviation reachable := (reachable GCP_BUCKET_NAME quote).
Abbreviation row_ok := (row_ok GCP_BUCKET_NAME quote).
Abbreviation table_ok := (table_ok GCP_BUCKET_NAME quote).
Abbreviation world_ok := (world_ok GCP_BUCKET_NAME quote).
Abbreviation replace_calls := (replace_calls GCP_BUCKET_NAME quote).
Abbreviation create_calls := (create_calls GCP_BUCKET_NAME quote).

(** *** Validation of the file part *)

(** C8: a Create or Replace request without a file part is answered with
    status 400, and nothing changes: no backend call is made, so the bucket
    and the table (and the whole world) are as before. *)
Theorem missing_file_rejected (flt : Faults) (request : Request)
    (image_id : Z) (w : World) :
  files_file request = None →
  ∃ r1 r2,
    upload_image flt request w = (Ok r1, w) ∧ status_code r1 = 400
    ∧ update_image flt request image_id w = (Ok r2, w) ∧ status_code r2 = 400.
Proof.
  intros Hnone. unfold_handlers. rewrite Hnone. simpl.
  do 2 eexists. repeat split; apply format_response_status.
Qed.

(** C2, as the code has it: on a Replace request whose id matches no
    record, the file part is validated before any lookup.  Without a file
    part the answer is 400 and no backend call is made; only with a file
    part present is the record looked up, and the answer is then 404. *)
Theorem replace_validates_before_lookup (flt : Faults) (request : Request)
    (image_id : Z) (w : World) :
  find_row image_id (images w) = None →
  connect_fails flt = false →
  select_fails flt = false →
  let '(r, w') := update_image flt request image_id w in
  match files_file request with
  | None => response_status r = Some 400 ∧ w' = w
  | Some _ =>
      response_status r = Some 404
      ∧ trace w' = trace w ++ [EvDbConnect; EvDbSelectFilename image_id]
  end.
Proof.
  intros Hrow Hc Hs. unfold_handlers.
  destruct (files_file request) as [file|]; simpl.
  - rewrite Hc, Hs. simpl. rewrite Hrow. simpl.
    rewrite format_response_status, <- app_assoc. done.
  - by rewrite format_response_status.
Qed.

(** *** Unknown ids *)

Lemma delete_unknown_id (flt : Faults) (request : Request) (image_id : Z)
    (w : World) :
  find_row image_id (images w) = None →
  let '(r, w') := delete_image flt request image_id w in
  bucket w' = bucket w ∧ images w' = images w
  ∧ auto_increment w' = auto_increment w
  ∧ (connect_fails flt = false → select_fails flt = false →
     response_status r = Some 404).
Proof.
  intros Hrow. run_handler; rewrite ?Hrow; simpl;
    rewrite ?format_response_status; repeat split; done.
Qed.

Lemma replace_unknown_id (flt : Faults) (request : Request) (image_id : Z)
    (w : World) :
  find_row image_id (images w) = None →
  let '(r, w') := update_image flt request image_id w in
  bucket w' = bucket w ∧ images w' = images w
  ∧ auto_increment w' = auto_increment w
  ∧ (connect_fails flt = false → select_fails flt = false →
     response_status r
     = Some (match files_file request with Some _ => 404 | None => 400 end)).
Proof.
  intros Hrow. unfold_handlers.
  destruct (files_file request) as [file|]; simpl;
    repeat (split_call; simpl); rewrite ?Hrow; simpl;
    rewrite ?format_response_status; repeat split; done.
Qed.

(** C7, as the code has it: a Delete request, or a Replace request that
    carries a file part, whose id matches no record is answered with 404
    once the lookup has run; a Replace request without a file part is
    answered with 400 instead.  In every case neither backend is mutated:
    the bucket, the rows and the id counter are as before. *)
Theorem unknown_id_no_mutation (flt : Faults) (request : Request)
    (image_id : Z) (w : World) :
  find_row image_id (images w) = None →
  connect_fails flt = false →
  select_fails flt = false →
  let '(rd, wd) := delete_image flt request image_id w in
  let '(ru, wu) := update_image flt request image_id w in
  response_status rd = Some 404
  ∧ response_status ru
    = Some (match files_file request with Some _ => 404 | None => 400 end)
  ∧ bucket wd = bucket w ∧ images wd = images w
  ∧ auto_increment wd = auto_increment w
  ∧ bucket wu = bucket w ∧ images wu = images w
  ∧ auto_increment wu = auto_increment w.
Proof.
  intros Hrow Hc Hs.
  pose proof (delete_unknown_id flt request image_id w Hrow) as Hd.
  pose proof (replace_unknown_id flt request image_id w Hrow) as Hu.
  destruct (delete_image flt request image_id w) as [rd wd].
  destruct (update_image flt request image_id w) as [ru wu].
  destruct Hd as (? & ? & ? & Hd), Hu as (? & ? & ? & Hu).
  rewrite Hd, Hu by done. done.
Qed.

(** *** Delete: a failed blob deletion stops the operation *)

(** C5: on a Delete request for an existing record, when the deletion of
    the blob fails (the object is missing or the bucket refuses), the
    storage error propagates, the row deletion is never issued, and the
    table (and the bucket) are unchanged, so the row is still there. *)
Theorem delete_blob_failure_keeps_row (flt : Faults) (request : Request)
    (image_id : Z) (w : World) (row : Row) :
  find_row image_id (images w) = Some row →
  connect_fails flt = false →
  select_fails flt = false →
  blob_delete_fails flt = true ∨ bucket w !! row_filename row = None →
  ∃ e w',
    delete_image flt request image_id w = (Raise e, w')
    ∧ is_storage_error e = true
    ∧ trace w' = trace w ++ [EvDbConnect; EvDbSelectFilename image_id;
                              EvBlobDelete (row_filename row)]
    ∧ (EvDbDelete image_id ∉ drop (length (trace w)) (trace w'))
    ∧ images w' = images w
    ∧ find_row image_id (images w') = Some row
    ∧ bucket w' = bucket w.
Proof.
  intros Hrow Hc Hs Hfail. unfold_handlers. simpl.
  rewrite Hc, Hs. simpl. rewrite Hrow. simpl.
  assert (Hdrop : ∀ (t : list Event) e1 e2 e3,
             drop (length t) (((t ++ [e1]) ++ [e2]) ++ [e3]) = [e1; e2; e3]).
  { intros. rewrite <- !app_assoc. simpl. by rewrite drop_app_length. }
  destruct (blob_delete_fails flt) eqn:Hb; simpl.
  - eexists _, _. split; [done|]. simpl. rewrite Hdrop, <- !app_assoc.
    repeat split; try done.
    rewrite !elem_of_cons, elem_of_nil. intros [?|[?|[?|[]]]]; discriminate.
  - destruct Hfail as [?|Hmiss]; [done|]. rewrite Hmiss.
    eexists _, _. split; [done|]. simpl. rewrite Hdrop, <- !app_assoc.
    repeat split; try done.
    rewrite !elem_of_cons, elem_of_nil. intros [?|[?|[?|[]]]]; discriminate.
Qed.

(** *** Replace: delete the old blob, upload the new one, update the row *)

Ltac trace_prefix n :=
  exists n; simpl; rewrite <- ?app_assoc; simpl;
  rewrite ?app_nil_r, ?lookup_insert_eq;
  repeat split; intros; try done; try lia;
  repeat match goal with H : ∃ _, _ |- _ => destruct H end; try done.

(** The first [n] calls of a Replace ran, with the state they leave. *)
Ltac replace_prefix n :=
  exists n; simpl; rewrite <- ?app_assoc; simpl;
  rewrite ?app_nil_r, ?lookup_insert_eq;
  repeat case_decide; repeat case_bool_decide; try lia;
  repeat split; intros; try done; try lia;
  repeat match goal with
         | H : ∃ _, _ |- _ => destruct H
         | H : _ ∧ _ |- _ => destruct H
         | H : is_Some None |- _ => destruct H
         end; try done; try congruence.

(** C1: on a Replace request with a file part whose record exists, the
    backend calls are a prefix of: look up the record, delete the blob
    stored under the record's current filename, upload the new blob, make
    it public, update the row with the new filename, size, MIME type and
    public URL, commit, close; the sequence is cut only at the first call
    that fails (a missing old blob makes the blob deletion fail).  Each
    step has its effect in that order: up to the blob deletion nothing has
    changed; from then on the old blob is gone; after the upload the new
    blob is stored, and it is public once make_public ran; the row is
    rewritten only when the whole sequence ran, with the public URL of the
    new blob, and only then is the request answered, with 200. *)
Theorem replace_order (flt : Faults) (request : Request) (image_id : Z)
    (w : World) (file : FileStorage) (old : Row) :
  files_file request = Some file →
  find_row image_id (images w) = Some old →
  let steps := replace_calls image_id (row_filename old) file in
  let '(r, w') := update_image flt request image_id w in
  (∃ n : nat,
      trace w' = trace w ++ take n steps
      ∧ ((5 < n)%nat →
         bucket w' !! filename file
         = Some (mkBlob (stream file) (content_type file) true))
      ∧ (n = 8%nat ↔ ∃ resp, r = Ok resp)
      ∧ (n = 8%nat ↔
         connect_fails flt = false ∧ select_fails flt = false
         ∧ blob_delete_fails flt = false
         ∧ is_Some (bucket w !! row_filename old)
         ∧ upload_fails flt = false ∧ make_public_fails flt = false
         ∧ update_fails flt = false ∧ commit_fails flt = false)
      ∧ bucket w'
        = (if decide (n ≤ 3)%nat then bucket w
           else if decide (n = 4)%nat
                then delete (row_filename old) (bucket w)
                else <[filename file :=
                         mkBlob (stream file) (content_type file)
                           (bool_decide (5 < n)%nat)]>
                       (delete (row_filename old) (bucket w)))
      ∧ images w'
        = (if decide (n = 8)%nat
           then map (λ r, if decide (row_id r = image_id)
                          then mkRow (row_id r) (filename file)
                                 (content_length file) (content_type file)
                                 (public_url (filename file))
                          else r) (images w)
           else images w))
  ∧ (flt = no_faults → is_Some (bucket w !! row_filename old) →
     trace w' = trace w ++ steps ∧ response_status r = Some 200)
  ∧ (∀ resp, r = Ok resp →
     status_code resp = 200
     ∧ payload (body resp)
       = VDict [("message", VStr "Imagen actualizada correctamente");
                ("new_url", VStr (public_url (filename file)))]).
Proof.
  intros Hfile Hrow. cbv zeta. unfold_handlers.
  rewrite Hfile. simpl.
  destruct (connect_fails flt) eqn:Hc; simpl.
  { split; [replace_prefix 1%nat | split; [by intros -> | done]]. }
  destruct (select_fails flt) eqn:Hs; simpl.
  { split; [replace_prefix 2%nat | split; [by intros -> | done]]. }
  rewrite Hrow. simpl.
  destruct (blob_delete_fails flt) eqn:Hbd; simpl.
  { split; [replace_prefix 3%nat | split; [by intros -> | done]]. }
  destruct (bucket w !! row_filename old) as [b|] eqn:Hold; simpl.
  2: { split; [replace_prefix 3%nat | split; [by intros _ [? ?] | done]]. }
  destruct (upload_fails flt) eqn:Hu; simpl.
  { split; [replace_prefix 4%nat | split; [by intros -> | done]]. }
  destruct (make_public_fails flt) eqn:Hm; simpl.
  { split; [replace_prefix 5%nat | split; [by intros -> | done]]. }
  rewrite lookup_insert_eq. simpl. rewrite insert_insert_eq.
  destruct (update_fails flt) eqn:Hup; simpl.
  { split; [replace_prefix 6%nat | split; [by intros -> | done]]. }
  destruct (commit_fails flt) eqn:Hcm; simpl.
  { split; [replace_prefix 7%nat | split; [by intros -> | done]]. }
  rewrite format_response_status.
  split; [replace_prefix 8%nat; eauto 10 |].
  split; [intros _ _; by rewrite <- !app_assoc|].
  intros resp [= <-].
  by rewrite format_response_status, format_response_payload.
Qed.

(** *** Create: upload the blob, then insert the row *)

(** C4, as the code has it: on a Create request with a file part the blob
    is uploaded under the supplied filename and MIME type before the row
    is inserted.  If the upload fails the table and the bucket are
    unchanged.  If the upload succeeds and the database part fails
    (connecting, the insert or the commit), the database error propagates,
    the blob is in the bucket and the table is unchanged: no row was
    inserted for it, so the blob is orphaned whenever no earlier record
    already carried that filename. *)
Theorem create_upload_then_insert (flt : Faults) (request : Request)
    (w : World) (file : FileStorage) :
  files_file request = Some file →
  let '(r, w') := upload_image flt request w in
  (∃ n : nat, trace w' = trace w ++ take n (create_calls file))
  ∧ (upload_fails flt = true →
     r = Raise StorageWriteError ∧ images w' = images w
     ∧ bucket w' = bucket w)
  ∧ (upload_fails flt = false → make_public_fails flt = false →
     connect_fails flt = true ∨ insert_fails flt = true
       ∨ commit_fails flt = true →
     (∃ e, r = Raise e ∧ is_storage_error e = false)
     ∧ images w' = images w
     ∧ bucket w' !! filename file
       = Some (mkBlob (stream file) (content_type file) true)
     ∧ (referencing (filename file) (images w) = [] →
        orphaned (filename file) w')).
Proof.
  intros Hfile. unfold orphaned. unfold_handlers.
  rewrite Hfile. simpl.
  destruct (upload_fails flt) eqn:Hu; simpl.
  { split; [by exists 1%nat; rewrite <- ?app_assoc | done]. }
  destruct (make_public_fails flt) eqn:Hm; simpl.
  { split; [by exists 2%nat; rewrite <- ?app_assoc | done]. }
  rewrite lookup_insert_eq. simpl.
  destruct (connect_fails flt) eqn:Hc; simpl.
  { split; [by exists 3%nat; rewrite <- ?app_assoc | split; [done|]].
    intros _ _ _. rewrite lookup_insert_eq. repeat split; eauto. }
  destruct (insert_fails flt) eqn:Hi; simpl.
  { split; [by exists 4%nat; rewrite <- ?app_assoc | split; [done|]].
    intros _ _ _. rewrite lookup_insert_eq. repeat split; eauto. }
  destruct (commit_fails flt) eqn:Hcm; simpl.
  { split; [by exists 5%nat; rewrite <- ?app_assoc | split; [done|]].
    intros _ _ _. rewrite lookup_insert_eq. repeat split; eauto. }
  split; [by exists 6%nat; rewrite <- ?app_assoc |].
  split; [done|]. intros _ _ [?|[?|?]]; done.
Qed.

(** *** The table invariant *)

Lemma table_ok_mono (next next' : Z) (rows : list Row) :
  next ≤ next' → table_ok next rows → table_ok next' rows.
Proof.
  intros Hle [Hrows Hnd]. split; [|done].
  eapply Forall_impl; [exact Hrows|]. intros r [? ?]. split; [done|lia].
Qed.

Lemma row_ids_below (next : Z) (rows : list Row) :
  Forall (row_ok next) rows → next ∉ map row_id rows.
Proof.
  induction 1 as [|r rows [_ Hlt] _ IH]; simpl.
  - apply not_elem_of_nil.
  - rewrite elem_of_cons. intros [->|?]; [lia|done].
Qed.

Lemma table_ok_insert (next : Z) (rows : list Row) (fname : string)
    (size : Z) (mime : string) :
  table_ok next rows →
  table_ok (next + 1) (rows ++ [mkRow next fname size mime (public_url fname)]).
Proof.
  intros [Hrows Hnd]. split.
  - apply Forall_app. split.
    + eapply Forall_impl; [exact Hrows|]. intros r [? ?]. split; [done|lia].
    + repeat constructor; simpl. lia.
  - rewrite map_app. simpl. apply NoDup_app. split; [done|]. split.
    + intros x Hx. rewrite elem_of_cons, elem_of_nil. intros [->|[]].
      by apply (row_ids_below next rows).
    + apply NoDup_singleton.
Qed.

Lemma table_ok_update (next : Z) (rows : list Row) (image_id : Z)
    (fname : string) (size : Z) (mime : string) :
  table_ok next rows →
  table_ok next
    (map (λ r, if decide (row_id r = image_id)
               then mkRow (row_id r) fname size mime (public_url fname)
               else r) rows).
Proof.
  intros [Hrows Hnd]. split.
  - clear Hnd. induction Hrows as [|r rows [Hurl Hlt] _ IH]; simpl;
      constructor; [|done].
    case_decide; [split|]; done.
  - rewrite map_map.
    erewrite map_ext; [exact Hnd|]. intros r. simpl. by case_decide.
Qed.

Lemma table_ok_filter (next : Z) (rows : list Row) (P : Row → Prop)
    `{∀ r, Decision (P r)} :
  table_ok next rows → table_ok next (filter P rows).
Proof.
  intros [Hrows Hnd]. split.
  - clear Hnd. induction Hrows as [|r rows Hr _ IH]; [constructor|].
    rewrite filter_cons. case_decide; [constructor|]; done.
  - clear Hrows. induction rows as [|r rows IH]; [done|].
    simpl in Hnd. apply NoDup_cons in Hnd as [Hr Hnd].
    rewrite filter_cons. case_decide; [|by apply IH].
    simpl. apply NoDup_cons. split; [|by apply IH].
    intros Hin. apply Hr. clear -Hin.
    induction rows as [|r' rows IH]; [done|].
    rewrite filter_cons in Hin. simpl. rewrite elem_of_cons.
    case_decide; [|by right; apply IH].
    simpl in Hin. apply elem_of_cons in Hin as [->|Hin]; [by left|].
    right. by apply IH.
Qed.

(** Every request, whatever fails during it, keeps the table invariant. *)
Lemma handle_preserves_ok (flt : Faults) (c : Call) (w : World) :
  world_ok w → world_ok (handle flt c w).2.
Proof.
  unfold_invariant. intros Hok.
  destruct c as [request|request|request image_id|request image_id];
    run_handler;
    eauto using table_ok_insert, table_ok_update, table_ok_filter;
    (eapply table_ok_mono; [|exact Hok]; lia).
Qed.

(** X16: in every world the service can reach, whatever failed on the
    way, each row carries the public URL of the object named by its
    filename, and no two rows share an id. *)
Lemma reachable_ok (w : World) : reachable w → world_ok w.
Proof.
  induction 1 as [|w flt c _ IH].
  - split; simpl; constructor.
  - by apply handle_preserves_ok.
Qed.

(** *** Create with a filename that a record already carries *)

Lemma referencing_elem (key : string) (r : Row) (rows : list Row) :
  r ∈ rows → row_filename r = key → (1 ≤ length (referencing key rows))%nat.
Proof.
  intros Hin Hkey.
  assert (Hr : r ∈ referencing key rows) by by apply list_elem_of_filter.
  destruct (referencing key rows); [by apply elem_of_nil in Hr | simpl; lia].
Qed.

(** C10: a Create request whose filename is that of an existing record,
    all backend calls succeeding, overwrites the object stored under that
    name with the new content and appends a second row with a new id, the
    same filename and the same access_url, so that two distinct records
    reference the one object.  (The table invariant [world_ok] holds in
    every reachable world, see [reachable_ok].) *)
Theorem create_same_filename_duplicates (flt : Faults) (request : Request)
    (w : World) (file : FileStorage) (old : Row) :
  files_file request = Some file →
  world_ok w →
  old ∈ images w →
  row_filename old = filename file →
  upload_fails flt = false → make_public_fails flt = false →
  connect_fails flt = false → insert_fails flt = false →
  commit_fails flt = false →
  let '(r, w') := upload_image flt request w in
  let new := mkRow (auto_increment w) (filename file) (content_length file)
               (content_type file) (public_url (filename file)) in
  response_status r = Some 200
  ∧ bucket w' !! filename file
    = Some (mkBlob (stream file) (content_type file) true)
  ∧ images w' = images w ++ [new]
  ∧ old ∈ images w' ∧ new ∈ images w'
  ∧ row_id new ≠ row_id old
  ∧ row_filename new = row_filename old
  ∧ row_access_url new = row_access_url old
  ∧ (2 ≤ length (referencing (filename file) (images w')))%nat.
Proof.
  intros Hfile Hok Hin Hname Hu Hm Hc Hi Hcm. unfold_invariant.
  destruct Hok as [Hrows _].
  pose proof (proj1 (Forall_forall _ _) Hrows old Hin) as [Hurl Hlt].
  unfold_handlers. rewrite Hfile. simpl. rewrite Hu. simpl.
  rewrite Hm. simpl. rewrite lookup_insert_eq. simpl.
  rewrite Hc. simpl. rewrite Hi. simpl. rewrite Hcm. simpl.
  rewrite format_response_status, !lookup_insert_eq.
  repeat split; try done.
  - apply elem_of_app. by left.
  - apply elem_of_app. right. apply list_elem_of_singleton. done.
  - lia.
  - by rewrite Hurl, Hname.
  - unfold referencing. rewrite filter_app, length_app.
    pose proof (referencing_elem (filename file) old (images w) Hin Hname).
    unfold referencing in *. rewrite filter_cons. simpl.
    case_decide; [simpl; lia | done].
Qed.

(** *** Database connections *)

(** X17: a request answered with 200 or 400 leaves as many connections
    open as it found. *)
Lemma connection_released_on_completion (flt : Faults) (c : Call)
    (w w' : World) (r : Response) :
  handle flt c w = (Ok r, w') →
  status_code r ≠ 404 →
  open_conns w' = open_conns w.
Proof.
  destruct c as [request|request|request image_id|request image_id];
    run_handler; intros Heq Hst; simplify_eq; simpl; try done;
    by rewrite format_response_status in Hst.
Qed.

(** *** Create, then List *)

(** X19: after a Create on which no backend call fails, the response names
    the file and its public URL, and a List shows the new row; its
    filesize_bytes is the [content_length] attribute of the file handle. *)
Lemma create_then_list (request request' : Request) (w : World)
    (file : FileStorage) :
  files_file request = Some file →
  let '(r, w1) := upload_image no_faults request w in
  let '(r', w2) := list_images no_faults request' w1 in
  ∃ resp resp',
    r = Ok resp ∧ status_code resp = 200
    ∧ field "filename" (payload (body resp)) = Some (VStr (filename file))
    ∧ field "access_url" (payload (body resp))
      = Some (VStr (public_url (filename file)))
    ∧ r' = Ok resp' ∧ status_code resp' = 200
    ∧ field "images" (payload (body resp'))
      = Some (VList (map row_dict
           (images w ++ [mkRow (auto_increment w) (filename file)
                           (content_length file) (content_type file)
                           (public_url (filename file))]))).
Proof.
  intros Hfile. unfold_handlers. rewrite Hfile. simpl.
  rewrite lookup_insert_eq. simpl.
  eexists _, _. rewrite !format_response_status, !format_response_payload.
  repeat split; done.
Qed.

Lemma public_url_nonempty (key : string) : public_url key ≠ "".
Proof. done. Qed.

End Properties.

(** ** The theorems at concrete requests *)

Lemma one_cat_ok : world_ok "imgs" (λ s, s) one_cat.
Proof.
  split; simpl.
  - repeat constructor.
  - apply NoDup_singleton.
Qed.

Lemma missing_file_rejected_witness :
  files_file bare = None
  ∧ ∃ r1 r2,
      imgs_upload_image no_faults bare one_cat = (Ok r1, one_cat)
      ∧ status_code r1 = 400
      ∧ imgs_update_image no_faults bare 7 one_cat = (Ok r2, one_cat)
      ∧ status_code r2 = 400.
Proof.
  split; [reflexivity|].
  apply (missing_file_rejected "imgs" (λ s, s) no_faults bare 7 one_cat).
  reflexivity.
Defined.

(** C2 as stated fails: with no record 7 and no file part, Replace answers
    400, not 404. *)
Lemma replace_lookup_first_counterexample :
  find_row 7 (images one_cat) = None
  ∧ files_file bare = None
  ∧ response_status (imgs_update_image no_faults bare 7 one_cat).1 = Some 400
  ∧ response_status (imgs_update_image no_faults bare 7 one_cat).1 ≠ Some 404.
Proof. repeat split; try reflexivity. discriminate. Qed.

Lemma replace_validates_before_lookup_witness :
  find_row 7 (images one_cat) = None
  ∧ connect_fails no_faults = false
  ∧ select_fails no_faults = false
  ∧ (let '(r, w') := imgs_update_image no_faults bare 7 one_cat in
     response_status r = Some 400 ∧ w' = one_cat).
Proof.
  repeat (split; [reflexivity|]).
  apply (replace_validates_before_lookup "imgs" (λ s, s) no_faults bare 7
           one_cat); reflexivity.
Defined.

(** C7 as stated fails: a Replace request for an unknown id that carries
    no file part is answered with 400. *)
Lemma unknown_id_404_counterexample :
  find_row 7 (images init_world) = None
  ∧ response_status (imgs_update_image no_faults bare_xml 7 init_world).1
    = Some 400
  ∧ response_status (imgs_update_image no_faults bare_xml 7 init_world).1
    ≠ Some 404.
Proof. repeat split; try reflexivity. discriminate. Qed.

Lemma unknown_id_no_mutation_witness :
  find_row 7 (images one_cat) = None
  ∧ connect_fails no_faults = false
  ∧ select_fails no_faults = false
  ∧ (let '(rd, wd) := delete_image no_faults (post dog_png) 7 one_cat in
     let '(ru, wu) := imgs_update_image no_faults (post dog_png) 7 one_cat in
     response_status rd = Some 404
     ∧ response_status ru = Some 404
     ∧ bucket wd = bucket one_cat ∧ images wd = images one_cat
     ∧ auto_increment wd = auto_increment one_cat
     ∧ bucket wu = bucket one_cat ∧ images wu = images one_cat
     ∧ auto_increment wu = auto_increment one_cat).
Proof.
  repeat (split; [reflexivity|]).
  apply (unknown_id_no_mutation "imgs" (λ s, s) no_faults (post dog_png) 7
           one_cat); reflexivity.
Defined.

Lemma delete_blob_failure_keeps_row_witness :
  find_row 1 (images dangling_cat) = Some cat_row
  ∧ (blob_delete_fails no_faults = true
     ∨ bucket dangling_cat !! row_filename cat_row = None)
  ∧ ∃ e w',
      delete_image no_faults bare 1 dangling_cat = (Raise e, w')
      ∧ is_storage_error e = true
      ∧ trace w' = trace dangling_cat
                   ++ [EvDbConnect; EvDbSelectFilename 1;
                       EvBlobDelete (row_filename cat_row)]
      ∧ (EvDbDelete 1 ∉ drop (length (trace dangling_cat)) (trace w'))
      ∧ images w' = images dangling_cat
      ∧ find_row 1 (images w') = Some cat_row
      ∧ bucket w' = bucket dangling_cat.
Proof.
  split; [reflexivity|]. split; [right; reflexivity|].
  apply (delete_blob_failure_keeps_row no_faults bare 1 dangling_cat cat_row);
    [reflexivity | reflexivity | reflexivity | right; reflexivity].
Defined.

Lemma replace_order_witness :
  files_file (post dog_png) = Some dog_png
  ∧ find_row 1 (images one_cat) = Some cat_row
  ∧ (let '(r, w') := imgs_update_image no_faults (post dog_png) 1 one_cat in
     trace w' = trace one_cat
                ++ replace_calls "imgs" (λ s, s) 1 "cat.png" dog_png
     ∧ response_status r = Some 200
     ∧ bucket w' !! "cat.png" = None
     ∧ bucket w' !! "dog.png"
       = Some (mkBlob (stream dog_png) "image/png" true)
     ∧ images w' = [mkRow 1 "dog.png" 3 "image/png" (imgs_url "dog.png")]).
Proof.
  split; [reflexivity|]. split; [reflexivity|].
  pose proof (replace_order "imgs" (λ s, s) no_faults (post dog_png) 1
                one_cat dog_png cat_row eq_refl eq_refl) as H.
  cbv zeta in H. unfold imgs_update_image.
  destruct (update_image "imgs" (λ s, s) no_faults (post dog_png) 1 one_cat)
    as [r w'].
  assert (Hblob : is_Some (bucket one_cat !! row_filename cat_row))
    by (exists (mkBlob [x2a] "image/png" true); reflexivity).
  destruct H as ((n & _ & _ & _ & [_ Hn] & Hb & Hi) & H & _).
  destruct (H eq_refl Hblob) as [Htr Hst].
  assert (n = 8%nat) as -> by (apply Hn; repeat split; done).
  split; [exact Htr|]. split; [exact Hst|].
  rewrite Hb, Hi. repeat split; reflexivity.
Defined.

(** C4 as stated fails: when the INSERT is rejected after the upload of
    cat.png, the blob is in the bucket but it is not orphaned, because the
    earlier record 1 carries the same filename. *)
Lemma create_orphan_counterexample :
  let '(r, w') := imgs_upload_image insert_rejected (post (cat_png 1024))
                    one_cat in
  files_file (post (cat_png 1024)) = Some (cat_png 1024)
  ∧ upload_fails insert_rejected = false
  ∧ insert_fails insert_rejected = true
  ∧ r = Raise StoreQueryError
  ∧ bucket w' !! "cat.png"
    = Some (mkBlob (stream (cat_png 1024)) "image/png" true)
  ∧ referencing "cat.png" (images w') = [cat_row]
  ∧ ¬ orphaned "cat.png" w'.
Proof.
  vm_compute. repeat split; try reflexivity.
  intros [_ Hnone]. discriminate Hnone.
Qed.

Lemma create_upload_then_insert_witness :
  files_file (post (cat_png 1024)) = Some (cat_png 1024)
  ∧ (let '(r, w') := imgs_upload_image insert_rejected (post (cat_png 1024))
                       init_world in
     (∃ e, r = Raise e ∧ is_storage_error e = false)
     ∧ images w' = images init_world
     ∧ bucket w' !! "cat.png"
       = Some (mkBlob (stream (cat_png 1024)) "image/png" true)
     ∧ (referencing "cat.png" (images init_world) = [] →
        orphaned "cat.png" w')).
Proof.
  split; [reflexivity|].
  pose proof (create_upload_then_insert "imgs" (λ s, s) insert_rejected
                (post (cat_png 1024)) init_world (cat_png 1024) eq_refl) as H.
  unfold imgs_upload_image.
  destruct (upload_image "imgs" (λ s, s) insert_rejected
              (post (cat_png 1024)) init_world) as [r w'].
  destruct H as (_ & _ & H).
  apply H; [reflexivity | reflexivity | right; left; reflexivity].
Defined.

Lemma create_same_filename_duplicates_witness :
  files_file (post (cat_png 1024)) = Some (cat_png 1024)
  ∧ cat_row ∈ images one_cat
  ∧ row_filename cat_row = filename (cat_png 1024)
  ∧ (let '(r, w') := imgs_upload_image no_faults (post (cat_png 1024))
                       one_cat in
     let new := mkRow 2 "cat.png" 1024 "image/png" (imgs_url "cat.png") in
     response_status r = Some 200
     ∧ bucket w' !! "cat.png"
       = Some (mkBlob (stream (cat_png 1024)) "image/png" true)
     ∧ images w' = [cat_row; new]
     ∧ cat_row ∈ images w' ∧ new ∈ images w'
     ∧ row_id new ≠ row_id cat_row
     ∧ row_filename new = row_filename cat_row
     ∧ row_access_url new = row_access_url cat_row
     ∧ (2 ≤ length (referencing "cat.png" (images w')))%nat).
Proof.
  split; [reflexivity|]. split; [apply list_elem_of_here|].
  split; [reflexivity|].
  apply (create_same_filename_duplicates "imgs" (λ s, s) no_faults
           (post (cat_png 1024)) one_cat (cat_png 1024) cat_row);
    first [reflexivity | exact one_cat_ok | apply list_elem_of_here].
Defined.

(** C3 fails on the code: a request that ends in an exception after it
    opened its connection never releases it.  With no backend fault at all:
    dog.png is created twice, record 1 is deleted (which removes the blob
    both records share), and the Delete of record 2 then raises from
    blob.delete(); likewise a Replace whose upload is refused raises from
    upload_from_file.  Neither reaches close, and one connection is open
    afterwards where none was before.  (The 404 early return skips close
    as well, but there the handler returns and its connection is released
    with the frame.) *)
Theorem connection_left_open_on_exception :
  let w1 := (imgs_upload_image no_faults (post dog_png) init_world).2 in
  let w2 := (imgs_upload_image no_faults (post dog_png) w1).2 in
  let '(r3, w3) := delete_image no_faults bare 1 w2 in
  let '(rd, wd) := delete_image no_faults bare 2 w3 in
  let '(ru, wu) := imgs_update_image upload_rejected (post dog_png) 1
                     one_cat in
  let '(rn, wn) := delete_image no_faults bare 7 one_cat in
  response_status r3 = Some 200
  ∧ open_conns w3 = 0%nat
  ∧ find_row 2 (images w3)
    = Some (mkRow 2 "dog.png" 3 "image/png" (imgs_url "dog.png"))
  ∧ rd = Raise StorageNotFoundError
  ∧ drop (length (trace w3)) (trace wd)
    = [EvDbConnect; EvDbSelectFilename 2; EvBlobDelete "dog.png"]
  ∧ open_conns wd = 1%nat
  ∧ open_conns one_cat = 0%nat
  ∧ ru = Raise StorageWriteError
  ∧ trace wu = [EvDbConnect; EvDbSelectFilename 1; EvBlobDelete "cat.png";
                EvBlobUpload "dog.png" "image/png"]
  ∧ open_conns wu = 1%nat
  ∧ response_status rn = Some 404
  ∧ trace wn = [EvDbConnect; EvDbSelectFilename 7]
  ∧ open_conns wn = 0%nat.
Proof. vm_compute. repeat split; reflexivity. Qed.

(** C9 fails on the code: cat.png is uploaded with 1024 bytes of content
    in a part that declares no length of its own.  The Create answers 200
    with the filename and a non-empty access_url, and the List shows the
    record, but its filesize_bytes is the handle's [content_length], 0, not
    the 1024 bytes that were stored. *)
Theorem create_cat_png_records_declared_length :
  let file := cat_png 0 in
  let '(r, w1) := imgs_upload_image no_faults (post file) init_world in
  let '(r', w2) := list_images no_faults bare w1 in
  length (stream file) = 1024%nat
  ∧ (blob_content <$> bucket w1 !! "cat.png") = Some (stream file)
  ∧ response_status r = Some 200
  ∧ response_payload r
    = Some (VDict [("message", VStr "Imagen subida correctamente");
                   ("filename", VStr "cat.png");
                   ("access_url",
                    VStr "https://storage.googleapis.com/imgs/cat.png")])
  ∧ response_status r' = Some 200
  ∧ response_payload r'
    = Some (VDict [("images",
              VList [VDict [("id", VInt 1);
                            ("filename", VStr "cat.png");
                            ("filesize_bytes", VInt 0);
                            ("mime_type", VStr "image/png");
                            ("access_url",
                             VStr "https://storage.googleapis.com/imgs/cat.png")]])]).
Proof. vm_compute. repeat split; reflexivity. Qed.

(** ** Further properties of the handlers *)

Ltac unfold_setters :=
  unfold set_bucket, set_images, set_auto_increment, set_open_conns,
    set_trace; simpl.

(** The calls a handler added to the log. *)
Ltac new_calls :=
  rewrite <- ?app_assoc; simpl; rewrite ?drop_app_length, ?app_nil_r.

(** The calls issued are the first [n] of the expected sequence. *)
Ltac calls_prefix n :=
  exists n; simpl; rewrite <- ?app_assoc; simpl; rewrite ?app_nil_r;
  repeat split; intros; try done; try lia;
  repeat match goal with H : ∃ _, _ |- _ => destruct H end; try done.

Section Lookup.

Lemma find_row_Some (image_id : Z) (rows : list Row) (r : Row) :
  find_row image_id rows = Some r → row_id r = image_id ∧ r ∈ rows.
Proof.
  induction rows as [|r' rows IH]; simpl; [done|].
  case_decide as Hid.
  - intros [= ->]. split; [done | apply list_elem_of_here].
  - intros Hr. destruct (IH Hr). split; [done | by apply list_elem_of_further].
Qed.

Lemma find_row_deleted (image_id : Z) (rows : list Row) :
  find_row image_id (filter (λ r, row_id r ≠ image_id) rows) = None.
Proof.
  induction rows as [|r rows IH]; [done|].
  rewrite filter_cons. case_decide as Hid; [|done].
  simpl. by case_decide.
Qed.

Lemma find_row_delete_other (image_id other : Z) (rows : list Row) :
  other ≠ image_id →
  find_row other (filter (λ r, row_id r ≠ image_id) rows)
  = find_row other rows.
Proof.
  intros Hne. induction rows as [|r rows IH]; [done|].
  rewrite filter_cons. case_decide as Hid; simpl.
  - case_decide; [done | exact IH].
  - case_decide; [congruence | exact IH].
Qed.

Lemma find_row_updated (image_id : Z) (rows : list Row) (old : Row)
    (fname : string) (size : Z) (mime url : string) :
  find_row image_id rows = Some old →
  find_row image_id
    (map (λ r, if decide (row_id r = image_id)
               then mkRow (row_id r) fname size mime url else r) rows)
  = Some (mkRow image_id fname size mime url).
Proof.
  induction rows as [|r rows IH]; simpl; [done|].
  destruct (decide (row_id r = image_id)) as [Hid|Hid]; simpl.
  - intros _. rewrite decide_True by done. by rewrite Hid.
  - intros Hr. rewrite decide_False by done. by apply IH.
Qed.

Lemma find_row_update_other (image_id other : Z) (rows : list Row)
    (fname : string) (size : Z) (mime url : string) :
  other ≠ image_id →
  find_row other
    (map (λ r, if decide (row_id r = image_id)
               then mkRow (row_id r) fname size mime url else r) rows)
  = find_row other rows.
Proof.
  intros Hne. induction rows as [|r rows IH]; simpl; [done|].
  destruct (decide (row_id r = image_id)) as [Hid|Hid]; simpl.
  - rewrite !decide_False by congruence. exact IH.
  - case_decide; [done | exact IH].
Qed.

Lemma find_row_insert_other (other : Z) (rows : list Row) (new : Row) :
  other ≠ row_id new →
  find_row other (rows ++ [new]) = find_row other rows.
Proof.
  intros Hne. induction rows as [|r rows IH]; simpl.
  - by rewrite decide_False.
  - case_decide; [done | exact IH].
Qed.

End Lookup.

Section Outcomes.

Variable GCP_BUCKET_NAME : string.
Variable quote : string → string.

Abbreviation upload_image := (upload_image GCP_BUCKET_NAME quote).
Abbreviation update_image := (update_image GCP_BUCKET_NAME quote).
Abbreviation public_url := (public_url GCP_BUCKET_NAME quote).
Abbreviation handle := (handle GCP_BUCKET_NAME quote).
Abbreviation reachable := (reachable GCP_BUCKET_NAME quote).
Abbreviation world_ok := (world_ok GCP_BUCKET_NAME quote).

(** *** List *)

(** X1: List never changes the bucket, the table or the id counter, whatever
    fails; when connecting and the SELECT succeed it answers 200 with every
    row of the table, in table order, under the key images, and closes its
    connection. *)
Theorem list_images_read_only (flt : Faults) (request : Request)
    (w : World) :
  let '(r, w') := list_images flt request w in
  bucket w' = bucket w ∧ images w' = images w
  ∧ auto_increment w' = auto_increment w
  ∧ (connect_fails flt = false → select_fails flt = false →
     response_status r = Some 200
     ∧ response_payload r
       = Some (VDict [("images", VList (map row_dict (images w)))])
     ∧ open_conns w' = open_conns w).
Proof.
  run_handler; repeat split; try done;
    by rewrite ?format_response_status, ?format_response_payload.
Qed.

(** *** Delete *)

(** What a Delete request does when the record and its blob exist and no
    backend call fails. *)
Lemma delete_image_runs (flt : Faults) (request : Request) (image_id : Z)
    (w : World) (row : Row) (b : Blob) :
  find_row image_id (images w) = Some row →
  bucket w !! row_filename row = Some b →
  connect_fails flt = false → select_fails flt = false →
  blob_delete_fails flt = false → delete_fails flt = false →
  commit_fails flt = false →
  delete_image flt request image_id w
  = (Ok (format_response request
           (VDict [("message", VStr "Imagen eliminada correctamente")]) 200),
     mkWorld (delete (row_filename row) (bucket w))
       (filter (λ r, row_id r ≠ image_id) (images w))
       (auto_increment w) (open_conns w)
       (trace w ++ [EvDbConnect; EvDbSelectFilename image_id;
                    EvBlobDelete (row_filename row); EvDbDelete image_id;
                    EvDbCommit; EvDbClose])).
Proof.
  intros Hrow Hblob Hc Hs Hbd Hd Hcm. unfold_handlers. simpl.
  rewrite Hc. simpl. rewrite Hs. simpl. rewrite Hrow. simpl.
  rewrite Hbd. simpl. rewrite Hblob. simpl. rewrite Hd. simpl.
  rewrite Hcm. unfold_setters. by rewrite <- !app_assoc.
Qed.

(** X2: a Delete request for an existing record whose blob exists, no
    backend call failing, answers 200, removes the row (a later lookup of
    the id finds nothing, all other rows stay in order), removes the blob
    stored under the record's filename and nothing else, and closes its
    connection. *)
Theorem delete_removes_row_and_blob (flt : Faults) (request : Request)
    (image_id : Z) (w : World) (row : Row) (b : Blob) :
  find_row image_id (images w) = Some row →
  bucket w !! row_filename row = Some b →
  connect_fails flt = false → select_fails flt = false →
  blob_delete_fails flt = false → delete_fails flt = false →
  commit_fails flt = false →
  let '(r, w') := delete_image flt request image_id w in
  response_status r = Some 200
  ∧ images w' = filter (λ r, row_id r ≠ image_id) (images w)
  ∧ find_row image_id (images w') = None
  ∧ bucket w' = delete (row_filename row) (bucket w)
  ∧ bucket w' !! row_filename row = None
  ∧ open_conns w' = open_conns w.
Proof.
  intros Hrow Hblob Hc Hs Hbd Hd Hcm.
  rewrite (delete_image_runs flt request image_id w row b) by done. simpl.
  rewrite format_response_status, find_row_deleted, lookup_delete_eq. done.
Qed.

(** X3: under any pattern of failures, the backend calls of a Delete
    request for an existing record are a prefix of: connect, look up the
    filename, delete the blob of that name, delete the row, commit, close;
    and the request is answered only when the whole sequence ran. *)
Theorem delete_order (flt : Faults) (request : Request) (image_id : Z)
    (w : World) (row : Row) :
  find_row image_id (images w) = Some row →
  let '(r, w') := delete_image flt request image_id w in
  ∃ n : nat,
    trace w' = trace w ++ take n [EvDbConnect; EvDbSelectFilename image_id;
                                  EvBlobDelete (row_filename row);
                                  EvDbDelete image_id; EvDbCommit; EvDbClose]
    ∧ (n = 6%nat ↔ ∃ resp, r = Ok resp).
Proof.
  intros Hrow. unfold_handlers. simpl.
  destruct (connect_fails flt); simpl; [calls_prefix 1%nat|].
  destruct (select_fails flt); simpl; [calls_prefix 2%nat|].
  rewrite Hrow. simpl.
  destruct (blob_delete_fails flt); simpl; [calls_prefix 3%nat|].
  destruct (bucket w !! row_filename row); simpl; [|calls_prefix 3%nat].
  destruct (delete_fails flt); simpl; [calls_prefix 4%nat|].
  destruct (commit_fails flt); simpl; [calls_prefix 5%nat|].
  calls_prefix 6%nat. eauto.
Qed.

(** X4: when the blob of an existing record was deleted and the DELETE
    statement or the commit then fails, the database error propagates and
    the row is still in the table while its blob is gone: the record is
    left pointing at a missing object. *)
Theorem delete_db_failure_dangles (flt : Faults) (request : Request)
    (image_id : Z) (w : World) (row : Row) (b : Blob) :
  find_row image_id (images w) = Some row →
  bucket w !! row_filename row = Some b →
  connect_fails flt = false → select_fails flt = false →
  blob_delete_fails flt = false →
  delete_fails flt = true ∨ commit_fails flt = true →
  let '(r, w') := delete_image flt request image_id w in
  r = Raise StoreQueryError
  ∧ images w' = images w
  ∧ find_row image_id (images w') = Some row
  ∧ bucket w' !! row_filename row = None.
Proof.
  intros Hrow Hblob Hc Hs Hbd Hfail. unfold_handlers. simpl.
  rewrite Hc. simpl. rewrite Hs. simpl. rewrite Hrow. simpl.
  rewrite Hbd. simpl. rewrite Hblob. simpl.
  destruct (delete_fails flt); simpl.
  - by rewrite lookup_delete_eq.
  - destruct Hfail as [?|Hcm]; [done|]. rewrite Hcm. simpl.
    by rewrite lookup_delete_eq.
Qed.

(** X5: when two records carry the same filename, a successful Delete of
    one of them removes the object they share: the other record stays in
    the table and now points at a missing object. *)
Theorem delete_shared_blob_dangles_other (flt : Faults) (request : Request)
    (image_id : Z) (w : World) (row other : Row) (b : Blob) :
  find_row image_id (images w) = Some row →
  bucket w !! row_filename row = Some b →
  connect_fails flt = false → select_fails flt = false →
  blob_delete_fails flt = false → delete_fails flt = false →
  commit_fails flt = false →
  other ∈ images w →
  row_id other ≠ image_id →
  row_filename other = row_filename row →
  let '(r, w') := delete_image flt request image_id w in
  response_status r = Some 200
  ∧ other ∈ images w'
  ∧ bucket w' !! row_filename other = None.
Proof.
  intros Hrow Hblob Hc Hs Hbd Hd Hcm Hin Hid Hname.
  rewrite (delete_image_runs flt request image_id w row b) by done. simpl.
  rewrite format_response_status, Hname, lookup_delete_eq.
  repeat split; try done. by apply list_elem_of_filter.
Qed.

(** X6: after a successful Delete, a List no longer shows the id, and a
    second Delete of the same id is answered with 404. *)
Theorem delete_then_list_and_delete (flt flt' : Faults)
    (request request' : Request) (image_id : Z) (w : World) (row : Row)
    (b : Blob) :
  find_row image_id (images w) = Some row →
  bucket w !! row_filename row = Some b →
  connect_fails flt = false → select_fails flt = false →
  blob_delete_fails flt = false → delete_fails flt = false →
  commit_fails flt = false →
  connect_fails flt' = false → select_fails flt' = false →
  let w1 := (delete_image flt request image_id w).2 in
  let remaining := filter (λ r, row_id r ≠ image_id) (images w) in
  response_payload (list_images flt' request' w1).1
  = Some (VDict [("images", VList (map row_dict remaining))])
  ∧ find_row image_id remaining = None
  ∧ response_status (delete_image flt' request' image_id w1).1 = Some 404.
Proof.
  intros Hrow Hblob Hc Hs Hbd Hd Hcm Hc' Hs'.
  rewrite (delete_image_runs flt request image_id w row b) by done.
  cbv zeta. simpl. split; [|split; [apply find_row_deleted|]].
  - unfold_handlers. simpl. rewrite Hc'. simpl. rewrite Hs'. simpl.
    by rewrite format_response_payload.
  - unfold_handlers. simpl. rewrite Hc'. simpl. rewrite Hs'. simpl.
    rewrite find_row_deleted. simpl. by rewrite format_response_status.
Qed.

(** *** Replace *)

(** X7: a Replace request with a file part, for an existing record whose
    blob exists, no backend call failing, answers 200 with the new public
    URL; the row keeps its id and position and carries the new filename,
    the handle's content_length, the new MIME type and that URL, no other
    row changes; the old blob is removed and the new one is stored, public,
    under the new filename (also when both names are equal); the
    connection is closed. *)
Theorem replace_updates_row_and_blobs (flt : Faults) (request : Request)
    (image_id : Z) (w : World) (file : FileStorage) (old : Row) (b : Blob) :
  files_file request = Some file →
  find_row image_id (images w) = Some old →
  bucket w !! row_filename old = Some b →
  connect_fails flt = false → select_fails flt = false →
  blob_delete_fails flt = false → upload_fails flt = false →
  make_public_fails flt = false → update_fails flt = false →
  commit_fails flt = false →
  let '(r, w') := update_image flt request image_id w in
  let new := mkRow image_id (filename file) (content_length file)
               (content_type file) (public_url (filename file)) in
  response_status r = Some 200
  ∧ response_payload r
    = Some (VDict [("message", VStr "Imagen actualizada correctamente");
                   ("new_url", VStr (public_url (filename file)))])
  ∧ images w' = map (λ r, if decide (row_id r = image_id) then new else r)
                    (images w)
  ∧ find_row image_id (images w') = Some new
  ∧ bucket w' = <[filename file :=
                    mkBlob (stream file) (content_type file) true]>
                  (delete (row_filename old) (bucket w))
  ∧ (filename file ≠ row_filename old →
     bucket w' !! row_filename old = None)
  ∧ auto_increment w' = auto_increment w
  ∧ open_conns w' = open_conns w.
Proof.
  intros Hfile Hrow Hblob Hc Hs Hbd Hu Hm Hup Hcm.
  pose proof (find_row_Some _ _ _ Hrow) as [Hid _].
  unfold_handlers. rewrite Hfile. simpl.
  rewrite Hc. simpl. rewrite Hs. simpl. rewrite Hrow. simpl.
  rewrite Hbd. simpl. rewrite Hblob. simpl. rewrite Hu. simpl.
  rewrite Hm. simpl. rewrite lookup_insert_eq. simpl.
  rewrite Hup. simpl. rewrite Hcm. simpl.
  rewrite format_response_status, format_response_payload, insert_insert_eq.
  repeat split; try done.
  - apply map_ext. intros r. case_decide as Hr; [by rewrite Hr | done].
  - by apply find_row_updated with (old := old).
  - intros Hne. rewrite lookup_insert_ne by done. apply lookup_delete_eq.
Qed.

(** X8: when the old blob has been deleted and the upload of the new one
    fails, the storage error propagates and the row is unchanged while its
    blob is gone: the record is left pointing at a missing object. *)
Theorem replace_upload_failure_dangles (flt : Faults) (request : Request)
    (image_id : Z) (w : World) (file : FileStorage) (old : Row) (b : Blob) :
  files_file request = Some file →
  find_row image_id (images w) = Some old →
  bucket w !! row_filename old = Some b →
  connect_fails flt = false → select_fails flt = false →
  blob_delete_fails flt = false →
  upload_fails flt = true →
  let '(r, w') := update_image flt request image_id w in
  r = Raise StorageWriteError
  ∧ images w' = images w
  ∧ find_row image_id (images w') = Some old
  ∧ bucket w' = delete (row_filename old) (bucket w)
  ∧ bucket w' !! row_filename old = None.
Proof.
  intros Hfile Hrow Hblob Hc Hs Hbd Hu.
  unfold_handlers. rewrite Hfile. simpl.
  rewrite Hc. simpl. rewrite Hs. simpl. rewrite Hrow. simpl.
  rewrite Hbd. simpl. rewrite Hblob. simpl. rewrite Hu. simpl.
  by rewrite lookup_delete_eq.
Qed.

(** X9: a record whose blob is missing from the bucket can be neither
    deleted, by any Delete request, nor replaced, by any Replace request
    that carries a file part: whatever else fails or succeeds, both
    requests end in an exception and leave the table and the bucket as
    they were. *)
Theorem missing_blob_blocks_replace_and_delete (flt : Faults)
    (request_d request_u : Request) (image_id : Z) (w : World)
    (file : FileStorage) (row : Row) :
  files_file request_u = Some file →
  find_row image_id (images w) = Some row →
  bucket w !! row_filename row = None →
  let '(ru, wu) := update_image flt request_u image_id w in
  let '(rd, wd) := delete_image flt request_d image_id w in
  response_status ru = None ∧ response_status rd = None
  ∧ images wu = images w ∧ bucket wu = bucket w
  ∧ images wd = images w ∧ bucket wd = bucket w.
Proof.
  intros Hfile Hrow Hblob. unfold_handlers. rewrite Hfile. simpl.
  destruct (connect_fails flt); simpl; [done|].
  destruct (select_fails flt); simpl; [done|].
  rewrite Hrow. simpl.
  destruct (blob_delete_fails flt); simpl; [done|].
  by rewrite Hblob.
Qed.

(** *** Create *)

(** X10: once the upload and make_public of a Create request succeed, the
    bucket holds the file's bytes under its filename, with its MIME type
    and public, whatever happens to the database part; no other object
    changes. *)
Theorem create_stores_public_blob (flt : Faults) (request : Request)
    (w : World) (file : FileStorage) :
  files_file request = Some file →
  upload_fails flt = false →
  make_public_fails flt = false →
  bucket (upload_image flt request w).2
  = <[filename file := mkBlob (stream file) (content_type file) true]>
      (bucket w).
Proof.
  intros Hfile Hu Hm. unfold_handlers. rewrite Hfile. simpl.
  rewrite Hu. simpl. rewrite Hm. simpl. rewrite lookup_insert_eq. simpl.
  repeat (split_call; simpl); by rewrite insert_insert_eq.
Qed.

(** *** All requests *)

(** X11: the table changes only in a request that is answered with 200: a
    request that raises, or is answered with 400 or 404, leaves every row
    as it was. *)
Theorem table_changes_only_on_200 (flt : Faults) (c : Call) (w w' : World)
    (r : Result Response) :
  handle flt c w = (r, w') →
  response_status r ≠ Some 200 →
  images w' = images w.
Proof.
  destruct c as [request|request|request image_id|request image_id];
    run_handler; intros Heq Hst; simplify_eq; simpl in *; try done;
    by rewrite format_response_status in Hst.
Qed.

(** X12: a request touches no object of the bucket other than the one
    named by its file part and the one named by the record it looks up. *)
Theorem bucket_frame (flt : Faults) (c : Call) (w : World) (key : string) :
  filename <$> files_file (request_of c) ≠ Some key →
  match c with
  | Replace _ image_id | Delete _ image_id =>
      row_filename <$> find_row image_id (images w) ≠ Some key
  | _ => True
  end →
  bucket (handle flt c w).2 !! key = bucket w !! key.
Proof.
  destruct c as [request|request|request image_id|request image_id];
    simpl; intros Hfile Hrow; run_handler; try done;
    rewrite ?lookup_insert_ne, ?lookup_delete_ne; simpl in *;
    try done; congruence.
Qed.

(** The table after a request: unchanged, or one row appended by Create,
    or the row of the id rewritten by Replace, or removed by Delete. *)
Lemma images_after (flt : Faults) (c : Call) (w : World) :
  ∃ rows', images (handle flt c w).2 = rows' ∧
    (rows' = images w
     ∨ (∃ request fname size mime,
          c = Create request
          ∧ rows' = images w ++ [mkRow (auto_increment w) fname size mime
                                   (public_url fname)])
     ∨ (∃ request image_id fname size mime,
          c = Replace request image_id
          ∧ rows' = map (λ r, if decide (row_id r = image_id)
                              then mkRow (row_id r) fname size mime
                                     (public_url fname)
                              else r) (images w))
     ∨ (∃ request image_id,
          c = Delete request image_id
          ∧ rows' = filter (λ r, row_id r ≠ image_id) (images w))).
Proof.
  destruct c as [request|request|request image_id|request image_id];
    run_handler; (eexists; split; [reflexivity|]); eauto 12.
Qed.

(** X13: a request changes no row other than its own: Replace and Delete
    leave the row of every other id as it was, and Create leaves the row
    of every id other than the one it assigns. *)
Theorem other_rows_untouched (flt : Faults) (c : Call) (w : World)
    (other : Z) :
  match c with
  | Replace _ image_id | Delete _ image_id => other ≠ image_id
  | Create _ => other ≠ auto_increment w
  | Listing _ => True
  end →
  find_row other (images (handle flt c w).2) = find_row other (images w).
Proof.
  intros Hother.
  destruct (images_after flt c w) as (rows' & -> & Hrows).
  destruct Hrows as [->|[Hrows|[Hrows|Hrows]]]; [done| | |].
  - destruct Hrows as (? & ? & ? & ? & -> & ->).
    by apply find_row_insert_other.
  - destruct Hrows as (? & ? & ? & ? & ? & -> & ->).
    by apply find_row_update_other.
  - destruct Hrows as (? & ? & -> & ->). by apply find_row_delete_other.
Qed.

(** X14: every response of every handler has status 200, 400 or 404 and is
    negotiated by the Accept header of its request: its content type is
    application/xml exactly when the header is the literal
    application/xml, and application/json otherwise. *)
Theorem responses_are_negotiated (flt : Faults) (c : Call) (w w' : World)
    (resp : Response) :
  handle flt c w = (Ok resp, w') →
  (status_code resp = 200 ∨ status_code resp = 400 ∨ status_code resp = 404)
  ∧ header_content_type resp
    = (if decide (accept (request_of c) = Some "application/xml")
       then "application/xml" else "application/json").
Proof.
  destruct c as [request|request|request image_id|request image_id];
    run_handler; intros Heq; simplify_eq;
    rewrite format_response_status; (split; [tauto|]);
    unfold format_response; by case_decide.
Qed.

(** X15: a request that opened its connection and then ends in an
    exception never closes it: one more connection is open afterwards. *)
Theorem exception_after_connect_leaks (flt : Faults) (c : Call)
    (w w' : World) (e : Error) :
  handle flt c w = (Raise e, w') →
  connect_fails flt = false →
  EvDbConnect ∈ drop (length (trace w)) (trace w') →
  open_conns w' = S (open_conns w).
Proof.
  destruct c as [request|request|request image_id|request image_id];
    run_handler; intros Heq Hc Hin; simplify_eq; simpl in *; try done;
    exfalso; revert Hin; new_calls;
    rewrite ?elem_of_cons, elem_of_nil; intros Hin;
    repeat (destruct Hin as [Hin|Hin]; [discriminate|]); done.
Qed.

End Outcomes.

(** ** The further properties at concrete requests *)

Lemma list_images_read_only_witness :
  let '(r, w') := list_images no_faults bare_xml one_cat in
  bucket w' = bucket one_cat ∧ images w' = images one_cat
  ∧ response_status r = Some 200
  ∧ response_payload r = Some (VDict [("images", VList [row_dict cat_row])])
  ∧ open_conns w' = open_conns one_cat.
Proof.
  pose proof (list_images_read_only no_faults bare_xml one_cat) as H.
  destruct (list_images no_faults bare_xml one_cat) as [r w'].
  destruct H as (Hb & Hi & _ & H). destruct H as (? & ? & ?); [done..|].
  done.
Defined.

Lemma delete_removes_row_and_blob_witness :
  find_row 1 (images one_cat) = Some cat_row
  ∧ is_Some (bucket one_cat !! row_filename cat_row)
  ∧ (let '(r, w') := delete_image no_faults bare 1 one_cat in
     response_status r = Some 200
     ∧ images w' = filter (λ r, row_id r ≠ 1) (images one_cat)
     ∧ find_row 1 (images w') = None
     ∧ bucket w' = delete (row_filename cat_row) (bucket one_cat)
     ∧ bucket w' !! row_filename cat_row = None
     ∧ open_conns w' = open_conns one_cat).
Proof.
  split; [reflexivity|]. split; [by eexists|].
  by apply (delete_removes_row_and_blob no_faults bare 1 one_cat cat_row
              (mkBlob [x2a] "image/png" true)).
Defined.

Lemma delete_order_witness :
  find_row 1 (images dangling_cat) = Some cat_row
  ∧ (let '(r, w') := delete_image no_faults bare 1 dangling_cat in
     ∃ n : nat,
       trace w' = trace dangling_cat
                  ++ take n [EvDbConnect; EvDbSelectFilename 1;
                             EvBlobDelete (row_filename cat_row);
                             EvDbDelete 1; EvDbCommit; EvDbClose]
       ∧ (n = 6%nat ↔ ∃ resp, r = Ok resp)).
Proof.
  split; [reflexivity|].
  by apply (delete_order no_faults bare 1 dangling_cat cat_row).
Defined.

Lemma delete_db_failure_dangles_witness :
  find_row 1 (images one_cat) = Some cat_row
  ∧ commit_fails commit_rejected = true
  ∧ (let '(r, w') := delete_image commit_rejected bare 1 one_cat in
     r = Raise StoreQueryError
     ∧ images w' = images one_cat
     ∧ find_row 1 (images w') = Some cat_row
     ∧ bucket w' !! row_filename cat_row = None).
Proof.
  split; [reflexivity|]. split; [reflexivity|].
  apply (delete_db_failure_dangles commit_rejected bare 1 one_cat cat_row
           (mkBlob [x2a] "image/png" true)); try done. by right.
Defined.

Lemma delete_shared_blob_dangles_other_witness :
  find_row 1 (images two_cats) = Some cat_row
  ∧ cat_row_2 ∈ images two_cats
  ∧ row_filename cat_row_2 = row_filename cat_row
  ∧ (let '(r, w') := delete_image no_faults bare 1 two_cats in
     response_status r = Some 200
     ∧ cat_row_2 ∈ images w'
     ∧ bucket w' !! row_filename cat_row_2 = None).
Proof.
  assert (Hin : cat_row_2 ∈ images two_cats)
    by (apply list_elem_of_further, list_elem_of_here).
  split; [reflexivity|]. split; [exact Hin|]. split; [reflexivity|].
  by apply (delete_shared_blob_dangles_other no_faults bare 1 two_cats
              cat_row cat_row_2 (mkBlob [x2a] "image/png" true)).
Defined.

Lemma delete_then_list_and_delete_witness :
  find_row 1 (images two_cats) = Some cat_row
  ∧ (let w1 := (delete_image no_faults bare 1 two_cats).2 in
     let remaining := filter (λ r, row_id r ≠ 1) (images two_cats) in
     response_payload (list_images no_faults bare w1).1
     = Some (VDict [("images", VList (map row_dict remaining))])
     ∧ find_row 1 remaining = None
     ∧ response_status (delete_image no_faults bare 1 w1).1 = Some 404).
Proof.
  split; [reflexivity|].
  by apply (delete_then_list_and_delete no_faults no_faults bare bare 1
              two_cats cat_row (mkBlob [x2a] "image/png" true)).
Defined.

Lemma replace_updates_row_and_blobs_witness :
  files_file (post dog_png) = Some dog_png
  ∧ find_row 1 (images one_cat) = Some cat_row
  ∧ (let '(r, w') := imgs_update_image no_faults (post dog_png) 1 one_cat in
     let new := mkRow 1 "dog.png" 3 "image/png" (imgs_url "dog.png") in
     response_status r = Some 200
     ∧ response_payload r
       = Some (VDict [("message", VStr "Imagen actualizada correctamente");
                      ("new_url", VStr (imgs_url "dog.png"))])
     ∧ images w' = map (λ r, if decide (row_id r = 1) then new else r)
                       (images one_cat)
     ∧ find_row 1 (images w') = Some new
     ∧ bucket w' = <["dog.png" := mkBlob (stream dog_png) "image/png" true]>
                     (delete "cat.png" (bucket one_cat))
     ∧ ("dog.png" ≠ "cat.png" → bucket w' !! "cat.png" = None)
     ∧ auto_increment w' = auto_increment one_cat
     ∧ open_conns w' = open_conns one_cat).
Proof.
  split; [reflexivity|]. split; [reflexivity|].
  by apply (replace_updates_row_and_blobs "imgs" (λ s, s) no_faults
              (post dog_png) 1 one_cat dog_png cat_row
              (mkBlob [x2a] "image/png" true)).
Defined.

Lemma replace_upload_failure_dangles_witness :
  files_file (post dog_png) = Some dog_png
  ∧ find_row 1 (images one_cat) = Some cat_row
  ∧ upload_fails upload_rejected = true
  ∧ (let '(r, w') := imgs_update_image upload_rejected (post dog_png) 1
                       one_cat in
     r = Raise StorageWriteError
     ∧ images w' = images one_cat
     ∧ find_row 1 (images w') = Some cat_row
     ∧ bucket w' = delete (row_filename cat_row) (bucket one_cat)
     ∧ bucket w' !! row_filename cat_row = None).
Proof.
  split; [reflexivity|]. split; [reflexivity|]. split; [reflexivity|].
  by apply (replace_upload_failure_dangles "imgs" (λ s, s) upload_rejected
              (post dog_png) 1 one_cat dog_png cat_row
              (mkBlob [x2a] "image/png" true)).
Defined.

Lemma missing_blob_blocks_replace_and_delete_witness :
  files_file (post dog_png) = Some dog_png
  ∧ files_file bare = None
  ∧ find_row 1 (images dangling_cat) = Some cat_row
  ∧ bucket dangling_cat !! row_filename cat_row = None
  ∧ (let '(ru, wu) := imgs_update_image no_faults (post dog_png) 1
                        dangling_cat in
     let '(rd, wd) := delete_image no_faults bare 1 dangling_cat in
     response_status ru = None ∧ response_status rd = None
     ∧ images wu = images dangling_cat ∧ bucket wu = bucket dangling_cat
     ∧ images wd = images dangling_cat ∧ bucket wd = bucket dangling_cat).
Proof.
  split; [reflexivity|]. split; [reflexivity|]. split; [reflexivity|].
  split; [reflexivity|].
  by apply (missing_blob_blocks_replace_and_delete "imgs" (λ s, s) no_faults
              bare (post dog_png) 1 dangling_cat dog_png cat_row).
Defined.

Lemma create_stores_public_blob_witness :
  files_file (post dog_png) = Some dog_png
  ∧ upload_fails insert_rejected = false
  ∧ make_public_fails insert_rejected = false
  ∧ bucket (imgs_upload_image insert_rejected (post dog_png) one_cat).2
    = <["dog.png" := mkBlob (stream dog_png) "image/png" true]>
        (bucket one_cat).
Proof.
  split; [reflexivity|]. split; [reflexivity|]. split; [reflexivity|].
  by apply (create_stores_public_blob "imgs" (λ s, s) insert_rejected
              (post dog_png) one_cat dog_png).
Defined.

Lemma table_changes_only_on_200_witness :
  let h := handle "imgs" (λ s, s) commit_rejected (Create (post dog_png))
             one_cat in
  response_status h.1 ≠ Some 200 ∧ images h.2 = images one_cat.
Proof.
  cbv zeta. split; [discriminate|].
  apply (table_changes_only_on_200 "imgs" (λ s, s) commit_rejected
           (Create (post dog_png)) one_cat _
           (handle "imgs" (λ s, s) commit_rejected (Create (post dog_png))
              one_cat).1);
    [apply surjective_pairing | discriminate].
Defined.

Lemma bucket_frame_witness :
  filename <$> files_file (request_of (Replace (post dog_png) 1))
    ≠ Some "bird.png"
  ∧ row_filename <$> find_row 1 (images one_cat) ≠ Some "bird.png"
  ∧ bucket (handle "imgs" (λ s, s) no_faults (Replace (post dog_png) 1)
              one_cat).2 !! "bird.png"
    = bucket one_cat !! "bird.png".
Proof.
  split; [discriminate|]. split; [discriminate|].
  apply (bucket_frame "imgs" (λ s, s) no_faults (Replace (post dog_png) 1)
           one_cat "bird.png"); discriminate.
Defined.

Lemma other_rows_untouched_witness :
  2 ≠ 1
  ∧ find_row 2 (images (handle "imgs" (λ s, s) no_faults
                          (Delete bare 1) two_cats).2)
    = find_row 2 (images two_cats).
Proof.
  split; [discriminate|].
  apply (other_rows_untouched "imgs" (λ s, s) no_faults (Delete bare 1)
           two_cats 2). discriminate.
Defined.

Lemma responses_are_negotiated_witness :
  let h := handle "imgs" (λ s, s) no_faults (Delete bare_xml 7) one_cat in
  ∃ resp, h.1 = Ok resp
    ∧ (status_code resp = 200 ∨ status_code resp = 400
       ∨ status_code resp = 404)
    ∧ header_content_type resp = "application/xml".
Proof.
  cbv zeta. eexists. split; [reflexivity|].
  apply (responses_are_negotiated "imgs" (λ s, s) no_faults
           (Delete bare_xml 7) one_cat
           (handle "imgs" (λ s, s) no_faults (Delete bare_xml 7) one_cat).2).
  reflexivity.
Defined.

Lemma exception_after_connect_leaks_witness :
  let h := handle "imgs" (λ s, s) commit_rejected (Create (post dog_png))
             one_cat in
  h.1 = Raise StoreQueryError
  ∧ connect_fails commit_rejected = false
  ∧ EvDbConnect ∈ drop (length (trace one_cat)) (trace h.2)
  ∧ open_conns h.2 = S (open_conns one_cat).
Proof.
  cbv zeta.
  assert (Hin : EvDbConnect
                ∈ drop (length (trace one_cat))
                    (trace (handle "imgs" (λ s, s) commit_rejected
                              (Create (post dog_png)) one_cat).2)).
  { vm_compute. do 2 apply list_elem_of_further. apply list_elem_of_here. }
  split; [reflexivity|]. split; [reflexivity|]. split; [exact Hin|].
  apply (exception_after_connect_leaks "imgs" (λ s, s) commit_rejected
           (Create (post dog_png)) one_cat _ StoreQueryError);
    [reflexivity | reflexivity | exact Hin].
Defined.

Lemma reachable_ok_witness :
  let w := (handle "imgs" (λ s, s) no_faults (Create (post dog_png))
              init_world).2 in
  reachable "imgs" (λ s, s) w ∧ world_ok "imgs" (λ s, s) w.
Proof.
  cbv zeta.
  assert (Hr : reachable "imgs" (λ s, s)
                 (handle "imgs" (λ s, s) no_faults (Create (post dog_png))
                    init_world).2)
    by (apply reachable_step, reachable_init).
  split; [exact Hr|]. apply (reachable_ok "imgs" (λ s, s) _ Hr).
Defined.

Lemma connection_released_on_completion_witness :
  let h := handle "imgs" (λ s, s) no_faults (Replace (post dog_png) 1)
             one_cat in
  response_status h.1 = Some 200 ∧ open_conns h.2 = open_conns one_cat.
Proof.
  cbv zeta.
  destruct (handle "imgs" (λ s, s) no_faults (Replace (post dog_png) 1)
              one_cat) as [r w'] eqn:Heq.
  assert (Hv := Heq). vm_compute in Hv. injection Hv as Hr Hw. subst r w'.
  split; [reflexivity|].
  apply (connection_released_on_completion "imgs" (λ s, s) no_faults
           (Replace (post dog_png) 1) one_cat _ _ Heq).
  discriminate.
Defined.

Lemma create_then_list_witness :
  files_file (post dog_png) = Some dog_png
  ∧ (let '(r, w1) := imgs_upload_image no_faults (post dog_png) one_cat in
     let '(r', w2) := list_images no_faults bare w1 in
     ∃ resp resp',
       r = Ok resp ∧ status_code resp = 200
       ∧ field "filename" (payload (body resp)) = Some (VStr "dog.png")
       ∧ field "access_url" (payload (body resp))
         = Some (VStr (imgs_url "dog.png"))
       ∧ r' = Ok resp' ∧ status_code resp' = 200
       ∧ field "images" (payload (body resp'))
         = Some (VList (map row_dict
              (images one_cat
               ++ [mkRow 2 "dog.png" 3 "image/png" (imgs_url "dog.png")])))).
Proof.
  split; [reflexivity|].
  by apply (create_then_list "imgs" (λ s, s) (post dog_png) bare one_cat
              dog_png).
Defined.
